(** * PythonNotebooksRepoTemplate: the authentication selector and the
      notebook discovery test, embedded and verified.

    The source files covered:
    - [utils/azure_auth_helper.py]: [authenticate_azure] and its two
      interactive helpers;
    - [tests/test_notebooks.py], with the fixtures of [tests/conftest.py]:
      [test_all_notebooks_exist], [test_simple_demo_notebook] and
      [test_notebook_execution].

    The Python code is embedded shallowly.  Calls into [azure.identity] and
    [print] are effects: a computation reads the behaviour of the identity
    library from a [world], appends the calls it makes to a trace, and ends
    either by returning a value or by raising an exception. *)

From Stdlib Require Import List String Ascii Bool ZArith Lia DecimalString.
Import ListNotations.
Local Open Scope string_scope.

(** ** Python values and exceptions *)

(** The arguments [auth_method] and [tenant_id] are untyped in the source:
    they may be [None], a [str], or something else.  An [int] stands for the
    values that are neither.  A [str] is its UTF-8 bytes. *)
Inductive pyval : Type :=
  | PyNone
  | PyStr (s : string)
  | PyInt (z : Z).

Definition is_none (v : pyval) : bool :=
  match v with PyNone => true | _ => false end.

(** [str(v)], as the f-strings of the source format a value. *)
Definition py_str (v : pyval) : string :=
  match v with
  | PyNone => "None"
  | PyStr s => s
  | PyInt z => NilZero.string_of_int (Z.to_int z)
  end.

Definition py_type_name (v : pyval) : string :=
  match v with
  | PyNone => "NoneType"
  | PyStr _ => "str"
  | PyInt _ => "int"
  end.

(** Exception classes.  All but the last two derive from [Exception]; the
    last two derive from [BaseException] only, so that an [except Exception]
    clause does not see them. *)
Inductive exn_class : Type :=
  | ValueError
  | AttributeError
  | AssertionError
  | ClientAuthenticationError
  | CredentialUnavailableError
  | KeyboardInterrupt
  | SystemExit.

Definition derives_Exception (c : exn_class) : bool :=
  match c with
  | KeyboardInterrupt | SystemExit => false
  | _ => true
  end.

Record exn : Type := mkExn { exn_cls : exn_class; exn_msg : string }.

(** ** [str.lower] on the ASCII range *)

Definition lower_ascii (c : ascii) : ascii :=
  let n := nat_of_ascii c in
  if (65 <=? n)%nat && (n <=? 90)%nat then ascii_of_nat (n + 32) else c.

Fixpoint lower (s : string) : string :=
  match s with
  | EmptyString => EmptyString
  | String c s' => String (lower_ascii c) (lower s')
  end.

(** ** The identity library, seen from the wrapper *)

Inductive cred_kind : Type :=
  | DefaultAzure
  | InteractiveBrowser
  | DeviceCode.

(** A credential handle is opaque; it remembers which class built it and the
    [tenant_id] keyword it was given, if any. *)
Record credential : Type :=
  mkCred { cred_kind_of : cred_kind; cred_tenant : option pyval }.

Inductive event : Type :=
  | EvPrint (line : string)
  | EvConstruct (k : cred_kind) (tenant : option pyval)
  | EvGetToken (c : credential) (scope : string).

(** What the library does when called: [None] is success, [Some e] is the
    exception it raises. *)
Record world : Type := mkWorld {
  lib_construct : cred_kind -> option pyval -> option exn;
  lib_get_token : credential -> string -> option exn
}.

(** ** Computations: reader of the world, writer of the trace, errors *)

Inductive outcome (A : Type) : Type :=
  | Returned (a : A)
  | Raised (e : exn).
Arguments Returned {A} a.
Arguments Raised {A} e.

Definition Py (A : Type) : Type := world -> outcome A * list event.

Definition ret {A} (a : A) : Py A := fun _ => (Returned a, []).

Definition raise {A} (e : exn) : Py A := fun _ => (Raised e, []).

Definition bind {A B} (m : Py A) (k : A -> Py B) : Py B :=
  fun w =>
    match m w with
    | (Returned a, t1) => let (r, t2) := k a w in (r, (t1 ++ t2)%list)
    | (Raised e, t1) => (Raised e, t1)
    end.

Notation "x <- m ;; k" := (bind m (fun x => k))
  (at level 61, m at next level, right associativity).
Notation "m ;;; k" := (bind m (fun _ => k))
  (at level 61, right associativity).

(** [try: body  except Exception as e: handler e]. *)
Definition try_except {A} (body : Py A) (handler : exn -> Py A) : Py A :=
  fun w =>
    match body w with
    | (Returned a, t1) => (Returned a, t1)
    | (Raised e, t1) =>
        if derives_Exception (exn_cls e)
        then let (r, t2) := handler e w in (r, (t1 ++ t2)%list)
        else (Raised e, t1)
    end.

Definition emit (ev : event) : Py unit := fun _ => (Returned tt, [ev]).

Definition print (line : string) : Py unit := emit (EvPrint line).

Definition construct (k : cred_kind) (tenant : option pyval) : Py credential :=
  fun w =>
    match lib_construct w k tenant with
    | None => (Returned (mkCred k tenant), [EvConstruct k tenant])
    | Some e => (Raised e, [EvConstruct k tenant])
    end.

Definition get_token (c : credential) (scope : string) : Py unit :=
  fun w =>
    match lib_get_token w c scope with
    | None => (Returned tt, [EvGetToken c scope])
    | Some e => (Raised e, [EvGetToken c scope])
    end.

Definition result {A} (r : outcome A * list event) : outcome A := fst r.
Definition trace {A} (r : outcome A * list event) : list event := snd r.

(** [v.lower()]: defined on [str]; any other value has no such attribute. *)
Definition py_lower (v : pyval) : Py string :=
  match v with
  | PyStr s => ret (lower s)
  | _ =>
      raise (mkExn AttributeError
               ("'" ++ py_type_name v ++ "' object has no attribute 'lower'"))
  end.

(** ** utils/azure_auth_helper.py *)

Definition management_scope : string := "https://management.azure.com/.default".

Definition _authenticate_with_browser (tenant_id : pyval) : Py credential :=
  print "🌐 Starting interactive browser authentication..." ;;;
  print ("🏢 Authenticating with tenant: " ++ py_str tenant_id) ;;;
  credential <- construct InteractiveBrowser (Some tenant_id) ;;
  try_except
    (get_token credential management_scope ;;;
     print "✅ Authentication successful!" ;;;
     ret credential)
    (fun e =>
       print ("❌ Authentication failed: " ++ exn_msg e) ;;;
       raise e).

Definition _authenticate_with_device_code (tenant_id : pyval) : Py credential :=
  print "📱 Starting device code authentication..." ;;;
  print ("🏢 Authenticating with tenant: " ++ py_str tenant_id) ;;;
  print "📝 You'll receive a code to enter on another device" ;;;
  credential <- construct DeviceCode (Some tenant_id) ;;
  try_except
    (get_token credential management_scope ;;;
     print "✅ Authentication successful!" ;;;
     ret credential)
    (fun e =>
       print ("❌ Authentication failed: " ++ exn_msg e) ;;;
       raise e).

(** Lines 34-36: the default of [auth_method]. *)
Definition default_method (auth_method : pyval) : pyval :=
  if is_none auth_method then PyStr "browser" else auth_method.

(** Lines 43-50: the attempt with existing credentials.  [Some c] is the
    [return credential] of line 48; [None] is falling out of the handler. *)
Definition try_existing : Py (option credential) :=
  try_except
    (credential <- construct DefaultAzure None ;;
     get_token credential management_scope ;;;
     print "✅ Using existing Azure credentials" ;;;
     ret (Some credential))
    (fun e =>
       print "ℹ️ No existing credentials found, will authenticate..." ;;;
       ret None).

(** Lines 52-60: the dispatch on the method. *)
Definition dispatch (auth_method tenant_id : pyval) : Py credential :=
  l <- py_lower auth_method ;;
  if (l =? "browser")%string then _authenticate_with_browser tenant_id
  else
    l' <- py_lower auth_method ;;
    if (l' =? "device")%string then _authenticate_with_device_code tenant_id
    else
      raise (mkExn ValueError
               ("Invalid auth_method: " ++ py_str auth_method
                ++ ". Use 'browser' or 'device'")).

Definition authenticate_azure (auth_method tenant_id : pyval) (force : bool)
  : Py credential :=
  let auth_method := default_method auth_method in
  if is_none tenant_id then
    raise (mkExn ValueError
             "tenant_id is required. Please provide your Azure tenant ID.")
  else
    existing <- (if negb force then try_existing else ret None) ;;
    match existing with
    | Some credential => ret credential
    | None => dispatch auth_method tenant_id
    end.

(** ** The environment's view of the existing credentials

    What the attempt of lines 45-46 meets in a given world: [None] when
    [DefaultAzureCredential()] and its [get_token] both succeed, otherwise
    the first exception raised. *)
Definition existing_failure (w : world) : option exn :=
  match lib_construct w DefaultAzure None with
  | Some e => Some e
  | None => lib_get_token w (mkCred DefaultAzure None) management_scope
  end.

(** The attempt does not return: it is skipped, or it raised something an
    [except Exception] clause catches. *)
Definition existing_not_taken (force : bool) (w : world) : Prop :=
  force = true \/
  (force = false /\
   exists e, existing_failure w = Some e /\ derives_Exception (exn_cls e) = true).

(** Classification of trace events. *)
Definition is_library_call (ev : event) : bool :=
  match ev with
  | EvPrint _ => false
  | _ => true
  end.

Definition event_kind (ev : event) : option cred_kind :=
  match ev with
  | EvPrint _ => None
  | EvConstruct k _ => Some k
  | EvGetToken c _ => Some (cred_kind_of c)
  end.

Definition uses_existing (ev : event) : bool :=
  match event_kind ev with
  | Some DefaultAzure => true
  | _ => false
  end.

Definition uses_interactive (ev : event) : bool :=
  match event_kind ev with
  | Some InteractiveBrowser | Some DeviceCode => true
  | _ => false
  end.

Definition is_get_token (ev : event) : bool :=
  match ev with
  | EvGetToken _ _ => true
  | _ => false
  end.

Definition token_requests (t : list event) : nat :=
  List.length (List.filter is_get_token t).

(** ** tests/test_notebooks.py: the file system and [Path.glob] *)

(** What a directory holds.  [Dir] is a directory that can be listed;
    [Locked] is a directory whose listing is refused (no read permission),
    though its entries can still be reached by name; [Symlink] is a symbolic
    link with the tree it resolves to, [None] when it dangles.  Every
    directory can be traversed, and names are compared byte for byte, as on a
    POSIX file system. *)
#[warnings="-register-all"]
Inductive entry : Type :=
  | File (name : string)
  | Dir (name : string) (children : list entry)
  | Locked (name : string) (children : list entry)
  | Symlink (name : string) (target : option entry).

Definition entry_name (e : entry) : string :=
  match e with
  | File n => n
  | Dir n _ => n
  | Locked n _ => n
  | Symlink n _ => n
  end.

(** What an entry is once symbolic links are followed, as [stat] sees it. *)
Fixpoint resolve (e : entry) : option entry :=
  match e with
  | Symlink _ target =>
      match target with
      | None => None
      | Some t => resolve t
      end
  | _ => Some e
  end.

(** [is_file()]: a regular file, possibly behind symbolic links. *)
Definition is_file (e : entry) : bool :=
  match resolve e with
  | Some (File _) => true
  | _ => false
  end.

(** A [Path] is its list of components. *)
Definition path : Type := list string.

Definition path_str (p : path) : string := String.concat "/" p.

(** Matching of one path component against a pattern of literal characters,
    [?] and [*] (the pattern of the test has no bracket expression). *)
Fixpoint fnmatch (pat : string) : string -> bool :=
  match pat with
  | EmptyString => fun s => match s with EmptyString => true | _ => false end
  | String c pat' =>
      if Ascii.eqb c "*"
      then fix star (s : string) : bool :=
             fnmatch pat' s
             || match s with
                | EmptyString => false
                | String _ s' => star s'
                end
      else fun s =>
             match s with
             | EmptyString => false
             | String d s' => (Ascii.eqb c "?" || Ascii.eqb c d) && fnmatch pat' s'
             end
  end.

(** [base.glob("**/" + pat)], as CPython 3.11 computes it, on the listing of
    [base].  The selector [**] yields the starting points: [base] itself,
    then, for each entry of its listing in turn that is a directory and not a
    symbolic link, that directory and the starting points below it.  A
    directory whose listing is refused is a starting point with nothing in
    it: the [PermissionError] is swallowed. *)
Fixpoint directories_below (dir : path) (e : entry) {struct e}
  : list (path * list entry) :=
  match e with
  | Dir d children =>
      ((dir ++ [d])%list, children)
      :: flat_map (directories_below (dir ++ [d])%list) children
  | Locked d _ => [ ((dir ++ [d])%list, []) ]
  | File _ => []
  | Symlink _ _ => []
  end.

Definition iterate_directories (base : path) (listing : list entry)
  : list (path * list entry) :=
  (base, listing) :: flat_map (directories_below base) listing.

(** The selector for [pat] at one starting point: the entries of its listing
    whose name matches, of any kind, in the order of the listing. *)
Definition select_from (pat : string) (start : path * list entry) : list path :=
  map (fun e => (fst start ++ [entry_name e])%list)
      (filter (fun e => fnmatch pat (entry_name e)) (snd start)).

Definition glob_recursive (pat : string) (base : path) (content : list entry)
  : list path :=
  flat_map (select_from pat) (iterate_directories base content).

(** [p.relative_to(base)]: the components of [p] after those of [base];
    [ValueError] when [base] is not a prefix of [p]. *)
Fixpoint strip_prefix (base p : path) : option path :=
  match base with
  | [] => Some p
  | b :: base' =>
      match p with
      | [] => None
      | c :: p' => if (b =? c)%string then strip_prefix base' p' else None
      end
  end.

Definition relative_to (p base : path) : Py path :=
  match strip_prefix base p with
  | Some rel => ret rel
  | None =>
      raise (mkExn ValueError
               ("'" ++ path_str p ++ "' is not in the subpath of '"
                ++ path_str base ++ "'"))
  end.

(** [assert cond, msg]. *)
Definition py_assert (cond : bool) (msg : string) : Py unit :=
  if cond then ret tt else raise (mkExn AssertionError msg).

(** [for x in xs: body x]. *)
Fixpoint for_each {A} (xs : list A) (body : A -> Py unit) : Py unit :=
  match xs with
  | [] => ret tt
  | x :: xs' => body x ;;; for_each xs' body
  end.

(** Truth value of a list: non-empty. *)
Definition list_truthy {A} (xs : list A) : bool :=
  match xs with
  | [] => false
  | _ :: _ => true
  end.

(** Line 34, the body of the loop:
    [print(f"Found notebook: {nb.relative_to(repo_root)}")]. *)
Definition report_notebook (repo_root nb : path) : Py unit :=
  rel <- relative_to nb repo_root ;;
  print ("Found notebook: " ++ path_str rel).

(** The test, given the [repo_root] fixture: the path of the root and the
    directory content found there. *)
Definition test_all_notebooks_exist (repo_root : path) (content : list entry)
  : Py unit :=
  let notebooks := glob_recursive "*.ipynb" repo_root content in
  py_assert (list_truthy notebooks) "No notebooks found in the repository" ;;;
  for_each notebooks (report_notebook repo_root).

(** *** What lies under a root, independently of [glob] *)

(** [entry_at content rel e]: the entry [e] sits at the relative path [rel]
    below a directory whose listing is [content], and every directory on the
    way can be listed and is not a symbolic link. *)
Inductive entry_at : list entry -> path -> entry -> Prop :=
  | at_here content e :
      In e content -> entry_at content [entry_name e] e
  | at_below content d children rel e :
      In (Dir d children) content ->
      entry_at children rel e ->
      entry_at content (d :: rel) e.

Definition has_suffix (suffix s : string) : Prop :=
  exists stem, s = stem ++ suffix.

(** At least one [.ipynb] file lies under the root, in the root itself or in
    a directory reached from it through directories that can be listed and
    are not symbolic links. *)
Definition ipynb_file_under (content : list entry) : Prop :=
  exists rel e,
    entry_at content rel e /\ is_file e = true
    /\ has_suffix ".ipynb" (entry_name e).


(** ** Sample worlds and trees *)

Definition world_ok : world :=
  mkWorld (fun _ _ => None) (fun _ _ => None).

(** No usable existing credentials; the interactive flows work. *)
Definition world_no_existing : world :=
  mkWorld (fun _ _ => None)
          (fun c _ =>
             match cred_kind_of c with
             | DefaultAzure =>
                 Some (mkExn CredentialUnavailableError "no credential available")
             | _ => None
             end).

(** The user interrupts the token request of the existing credentials. *)
Definition world_interrupted : world :=
  mkWorld (fun _ _ => None)
          (fun c _ =>
             match cred_kind_of c with
             | DefaultAzure => Some (mkExn KeyboardInterrupt "")
             | _ => None
             end).

(** Every interactive token request is refused. *)
Definition world_refused : world :=
  mkWorld (fun _ _ => None)
          (fun c _ => Some (mkExn ClientAuthenticationError "access denied")).

(** The user interrupts every token request. *)
Definition world_cancelled : world :=
  mkWorld (fun _ _ => None)
          (fun _ _ => Some (mkExn KeyboardInterrupt "")).

Definition sample_root : path := ["repo"].


(** A tree whose only entry is an empty directory named like a notebook. *)
Definition directory_only_content : list entry := [ Dir "a.ipynb" [] ].


(** ** Vocabulary of the statements *)

(** The handle [DefaultAzureCredential()] yields. *)
Definition existing_credential : credential := mkCred DefaultAzure None.

(** The events of lines 45-47 when the existing credentials validate. *)
Definition existing_success_trace : list event :=
  [ EvConstruct DefaultAzure None;
    EvGetToken existing_credential management_scope;
    EvPrint "✅ Using existing Azure credentials" ].

(** The line the handler of line 50 prints. *)
Definition no_existing_line : event :=
  EvPrint "ℹ️ No existing credentials found, will authenticate...".

(** The library calls the attempt makes before it fails. *)
Definition existing_calls (w : world) : list event :=
  match lib_construct w DefaultAzure None with
  | Some _ => [ EvConstruct DefaultAzure None ]
  | None =>
      [ EvConstruct DefaultAzure None;
        EvGetToken existing_credential management_scope ]
  end.

(** The two interactive helpers, named, so that one statement covers both. *)
Inductive interactive_flow : Type :=
  | Browser
  | Device.

Definition run_flow (f : interactive_flow) : pyval -> Py credential :=
  match f with
  | Browser => _authenticate_with_browser
  | Device => _authenticate_with_device_code
  end.

Definition flow_kind (f : interactive_flow) : cred_kind :=
  match f with
  | Browser => InteractiveBrowser
  | Device => DeviceCode
  end.

Definition flow_credential (f : interactive_flow) (t : pyval) : credential :=
  mkCred (flow_kind f) (Some t).

(** What a flow prints and builds before it asks for a token. *)
Definition flow_opening (f : interactive_flow) (t : pyval) : list event :=
  match f with
  | Browser =>
      [ EvPrint "🌐 Starting interactive browser authentication...";
        EvPrint ("🏢 Authenticating with tenant: " ++ py_str t);
        EvConstruct InteractiveBrowser (Some t) ]
  | Device =>
      [ EvPrint "📱 Starting device code authentication...";
        EvPrint ("🏢 Authenticating with tenant: " ++ py_str t);
        EvPrint "📝 You'll receive a code to enter on another device";
        EvConstruct DeviceCode (Some t) ]
  end.

(** The token request that validates the credential of a flow. *)
Definition flow_request (f : interactive_flow) (t : pyval) : event :=
  EvGetToken (flow_credential f t) management_scope.

Definition success_line : event := EvPrint "✅ Authentication successful!".

Definition failure_line (e : exn) : event :=
  EvPrint ("❌ Authentication failed: " ++ exn_msg e).

Ltac unfold_flow :=
  unfold run_flow, _authenticate_with_browser, _authenticate_with_device_code,
    try_except, bind, construct, get_token, print, emit, ret, raise,
    flow_request, flow_credential, flow_kind, flow_opening,
    success_line, failure_line.

(** The error of lines 58-60. *)
Definition invalid_method_error (auth_method : pyval) : exn :=
  mkExn ValueError
    ("Invalid auth_method: " ++ py_str auth_method
     ++ ". Use 'browser' or 'device'").

(** The method string that selects a flow. *)
Definition flow_name (f : interactive_flow) : string :=
  match f with
  | Browser => "browser"
  | Device => "device"
  end.

(** The exception [e] is one the identity library raised: in the attempt with
    existing credentials, or in the flow [f]. *)
Definition raised_by_library (w : world) (f : interactive_flow) (t : pyval)
  (e : exn) : Prop :=
  existing_failure w = Some e \/
  lib_construct w (flow_kind f) (Some t) = Some e \/
  lib_get_token w (flow_credential f t) management_scope = Some e.

(** The call [r] is a run of the flow [f], after events that touch no
    interactive credential. *)
Definition dispatches_to (f : interactive_flow) (t : pyval) (w : world)
  (r : outcome credential * list event) : Prop :=
  exists pre,
    Forall (fun ev => uses_interactive ev = false) pre /\
    r = (result (run_flow f t w), (pre ++ trace (run_flow f t w))%list).



(** ** tests/conftest.py and the two existence tests *)


(** [p.parent]; the root is its own parent. *)
Definition parent (p : path) : path := removelast p.







(** The fixtures, as functions of [__file__], the path of [conftest.py]. *)
Module conftest.

(** Line 13: [Path(__file__).parent.parent]. *)
Definition root_dir (file : path) : path := parent (parent file).

Definition repo_root (file : path) : path := root_dir file.


End conftest.








(** ** Further vocabulary *)


(** The error of line 40. *)
Definition missing_tenant_error : exn :=
  mkExn ValueError "tenant_id is required. Please provide your Azure tenant ID.".

(** The flow the method selects, after the default of lines 35-36 and the
    lower-casing of lines 53 and 55. *)
Definition selected_flow (auth_method : pyval) : option interactive_flow :=
  match default_method auth_method with
  | PyStr s =>
      if (lower s =? "browser")%string then Some Browser
      else if (lower s =? "device")%string then Some Device
      else None
  | _ => None
  end.

(** The library builds the credential of the flow and grants it a token. *)
Definition flow_granted (w : world) (f : interactive_flow) (t : pyval) : Prop :=
  lib_construct w (flow_kind f) (Some t) = None /\
  lib_get_token w (flow_credential f t) management_scope = None.

Definition is_construct (ev : event) : bool :=
  match ev with
  | EvConstruct _ _ => true
  | _ => false
  end.

Definition constructions (t : list event) : nat :=
  List.length (List.filter is_construct t).

Definition of_kind (k : cred_kind) (ev : event) : bool :=
  match event_kind ev, k with
  | Some DefaultAzure, DefaultAzure => true
  | Some InteractiveBrowser, InteractiveBrowser => true
  | Some DeviceCode, DeviceCode => true
  | _, _ => false
  end.

(** The lines a trace prints, in order. *)
Definition printed (t : list event) : list string :=
  flat_map (fun ev => match ev with EvPrint l => [l] | _ => [] end) t.

(** * Properties of the authentication selector *)

(** ** Laws of the computation type *)

Lemma bind_ret {A B} (a : A) (k : A -> Py B) (w : world) :
  bind (ret a) k w = k a w.
Proof. unfold bind, ret. destruct (k a w); reflexivity. Qed.

Lemma bind_returned {A B} (m : Py A) (k : A -> Py B) w a t :
  m w = (Returned a, t) ->
  bind m k w = (result (k a w), (t ++ trace (k a w))%list).
Proof. intros E. unfold bind. rewrite E. destruct (k a w); reflexivity. Qed.

Lemma bind_raised {A B} (m : Py A) (k : A -> Py B) w e t :
  m w = (Raised e, t) -> bind m k w = (Raised e, t).
Proof. intros E. unfold bind. rewrite E. reflexivity. Qed.

Lemma is_none_false (v : pyval) : v <> PyNone -> is_none v = false.
Proof. destruct v; [congruence | reflexivity | reflexivity]. Qed.

Lemma pair_result_trace {A} (r : outcome A * list event) :
  r = (result r, trace r).
Proof. destruct r; reflexivity. Qed.

(** ** The three ways the attempt with existing credentials can end *)

Lemma existing_calls_only_existing w :
  Forall (fun ev => uses_existing ev = true) (existing_calls w).
Proof.
  unfold existing_calls.
  destruct (lib_construct w DefaultAzure None); repeat constructor.
Qed.

Lemma try_existing_valid w :
  existing_failure w = None ->
  try_existing w = (Returned (Some existing_credential), existing_success_trace).
Proof.
  unfold existing_failure, try_existing, try_except, bind, construct, get_token.
  destruct (lib_construct w DefaultAzure None) eqn:Ec; [discriminate |].
  intros Eg. cbn. unfold existing_credential in *. rewrite Eg. reflexivity.
Qed.

Lemma try_existing_caught w e :
  existing_failure w = Some e ->
  derives_Exception (exn_cls e) = true ->
  try_existing w = (Returned None, (existing_calls w ++ [no_existing_line])%list).
Proof.
  unfold existing_failure, existing_calls, try_existing, try_except, bind,
    construct, get_token.
  destruct (lib_construct w DefaultAzure None) eqn:Ec.
  - intros [= ->] D. rewrite D. reflexivity.
  - intros Eg D. cbn. rewrite Eg, D. reflexivity.
Qed.

Lemma try_existing_uncaught w e :
  existing_failure w = Some e ->
  derives_Exception (exn_cls e) = false ->
  try_existing w = (Raised e, existing_calls w).
Proof.
  unfold existing_failure, existing_calls, try_existing, try_except, bind,
    construct, get_token.
  destruct (lib_construct w DefaultAzure None) eqn:Ec.
  - intros [= ->] D. rewrite D. reflexivity.
  - intros Eg D. cbn. rewrite Eg, D. reflexivity.
Qed.

(** ** The whole function, by cases *)

Lemma authenticate_forced m t w :
  t <> PyNone ->
  authenticate_azure m t true w = dispatch (default_method m) t w.
Proof.
  intros Ht. unfold authenticate_azure. rewrite (is_none_false t Ht).
  cbn [negb]. exact (bind_ret None _ w).
Qed.

Lemma authenticate_existing_valid m t w :
  t <> PyNone ->
  existing_failure w = None ->
  authenticate_azure m t false w
  = (Returned existing_credential, existing_success_trace).
Proof.
  intros Ht Hv. unfold authenticate_azure. rewrite (is_none_false t Ht).
  cbn [negb]. rewrite (bind_returned _ _ _ _ _ (try_existing_valid w Hv)).
  cbn. reflexivity.
Qed.

Lemma authenticate_existing_caught m t w e :
  t <> PyNone ->
  existing_failure w = Some e ->
  derives_Exception (exn_cls e) = true ->
  authenticate_azure m t false w
  = (result (dispatch (default_method m) t w),
     (existing_calls w ++ [no_existing_line]
      ++ trace (dispatch (default_method m) t w))%list).
Proof.
  intros Ht He D. unfold authenticate_azure. rewrite (is_none_false t Ht).
  cbn [negb]. rewrite (bind_returned _ _ _ _ _ (try_existing_caught w e He D)).
  rewrite <- app_assoc. reflexivity.
Qed.

Lemma authenticate_existing_uncaught m t w e :
  t <> PyNone ->
  existing_failure w = Some e ->
  derives_Exception (exn_cls e) = false ->
  authenticate_azure m t false w = (Raised e, existing_calls w).
Proof.
  intros Ht He D. unfold authenticate_azure. rewrite (is_none_false t Ht).
  cbn [negb]. apply bind_raised. apply try_existing_uncaught; assumption.
Qed.

(** When the attempt does not return, the call is the dispatch, after a
    prefix of events that touch the existing credentials only. *)
Lemma authenticate_not_taken m t force w :
  t <> PyNone ->
  existing_not_taken force w ->
  exists pre,
    Forall (fun ev => uses_interactive ev = false) pre /\
    authenticate_azure m t force w
    = (result (dispatch (default_method m) t w),
       (pre ++ trace (dispatch (default_method m) t w))%list).
Proof.
  intros Ht [-> | [-> (e & He & D)]].
  - exists []. split; [constructor |].
    rewrite authenticate_forced by assumption. apply pair_result_trace.
  - exists (existing_calls w ++ [no_existing_line])%list. split.
    + apply Forall_app. split.
      * eapply Forall_impl; [| apply existing_calls_only_existing].
        intros ev. unfold uses_existing, uses_interactive.
        destruct (event_kind ev) as [[]|]; congruence.
      * repeat constructor.
    + rewrite (authenticate_existing_caught m t w e) by assumption.
      rewrite <- app_assoc. reflexivity.
Qed.

(** ** The interactive flows *)

Lemma flow_construct_fails f t w e :
  lib_construct w (flow_kind f) (Some t) = Some e ->
  run_flow f t w = (Raised e, flow_opening f t).
Proof.
  destruct f; unfold_flow; cbn; intros ->; reflexivity.
Qed.

Lemma flow_token_granted f t w :
  lib_construct w (flow_kind f) (Some t) = None ->
  lib_get_token w (flow_credential f t) management_scope = None ->
  run_flow f t w
  = (Returned (flow_credential f t),
     (flow_opening f t ++ [flow_request f t; success_line])%list).
Proof.
  destruct f; unfold_flow; cbn; intros -> ->; reflexivity.
Qed.

Lemma flow_token_error f t w e :
  lib_construct w (flow_kind f) (Some t) = None ->
  lib_get_token w (flow_credential f t) management_scope = Some e ->
  derives_Exception (exn_cls e) = true ->
  run_flow f t w
  = (Raised e, (flow_opening f t ++ [flow_request f t; failure_line e])%list).
Proof.
  destruct f; unfold_flow; cbn; intros -> -> ->; reflexivity.
Qed.

Lemma flow_token_signal f t w e :
  lib_construct w (flow_kind f) (Some t) = None ->
  lib_get_token w (flow_credential f t) management_scope = Some e ->
  derives_Exception (exn_cls e) = false ->
  run_flow f t w = (Raised e, (flow_opening f t ++ [flow_request f t])%list).
Proof.
  destruct f; unfold_flow; cbn; intros -> -> ->; reflexivity.
Qed.

(** Every run of a flow falls in one of the four cases above. *)
Lemma flow_cases f t w :
  (exists e, lib_construct w (flow_kind f) (Some t) = Some e /\
             run_flow f t w = (Raised e, flow_opening f t)) \/
  (lib_construct w (flow_kind f) (Some t) = None /\
   exists tail,
     trace (run_flow f t w) = (flow_opening f t ++ flow_request f t :: tail)%list /\
     Forall (fun ev => is_library_call ev = false) tail /\
     (result (run_flow f t w) = Returned (flow_credential f t) \/
      exists e, lib_get_token w (flow_credential f t) management_scope = Some e /\
                result (run_flow f t w) = Raised e)).
Proof.
  destruct (lib_construct w (flow_kind f) (Some t)) as [e|] eqn:Ec.
  - left. exists e. split; [reflexivity | now apply flow_construct_fails].
  - right. split; [reflexivity |].
    destruct (lib_get_token w (flow_credential f t) management_scope)
      as [e|] eqn:Eg.
    + destruct (derives_Exception (exn_cls e)) eqn:D.
      * exists [failure_line e].
        rewrite (flow_token_error f t w e Ec Eg D). cbn [trace result fst snd].
        repeat split; [repeat constructor | right; eauto].
      * exists [].
        rewrite (flow_token_signal f t w e Ec Eg D). cbn [trace result fst snd].
        repeat split; [constructor | right; eauto].
    + exists [success_line].
      rewrite (flow_token_granted f t w Ec Eg). cbn [trace result fst snd].
      repeat split; [repeat constructor | left; reflexivity].
Qed.

Lemma flow_opening_no_existing f t :
  Forall (fun ev => uses_existing ev = false) (flow_opening f t).
Proof. destruct f; repeat constructor. Qed.

Lemma no_call_no_existing (l : list event) :
  Forall (fun ev => is_library_call ev = false) l ->
  Forall (fun ev => uses_existing ev = false) l.
Proof.
  apply Forall_impl. intros [line | k tn | c sc]; cbn; congruence.
Qed.

Lemma flow_no_existing f t w :
  Forall (fun ev => uses_existing ev = false) (trace (run_flow f t w)).
Proof.
  destruct (flow_cases f t w) as [(e & _ & E) | (_ & tail & E & Ht & _)];
    rewrite E; cbn [trace snd].
  - apply flow_opening_no_existing.
  - apply Forall_app. split; [apply flow_opening_no_existing |].
    constructor; [destruct f; reflexivity | now apply no_call_no_existing].
Qed.

(** A flow raises only what the library raised in that flow. *)
Lemma flow_raises_library_error f t w e :
  result (run_flow f t w) = Raised e ->
  lib_construct w (flow_kind f) (Some t) = Some e \/
  lib_get_token w (flow_credential f t) management_scope = Some e.
Proof.
  destruct (flow_cases f t w)
    as [(e' & Ec & E) | (_ & tail & _ & _ & [E | (e' & Eg & E)])];
    rewrite E; cbn [result fst]; intros [= <-]; auto.
Qed.

(** ** The dispatch *)

Lemma dispatch_browser s t w :
  lower s = "browser" ->
  dispatch (PyStr s) t w = run_flow Browser t w.
Proof.
  intros E. unfold dispatch, py_lower. rewrite bind_ret, E. reflexivity.
Qed.

Lemma dispatch_device s t w :
  lower s = "device" ->
  dispatch (PyStr s) t w = run_flow Device t w.
Proof.
  intros E. unfold dispatch, py_lower. rewrite bind_ret, E.
  change ("device" =? "browser")%string with false. cbv iota.
  rewrite bind_ret. reflexivity.
Qed.

Lemma dispatch_invalid s t w :
  lower s <> "browser" -> lower s <> "device" ->
  dispatch (PyStr s) t w = (Raised (invalid_method_error (PyStr s)), []).
Proof.
  intros Nb Nd. unfold dispatch, py_lower. rewrite bind_ret.
  apply String.eqb_neq in Nb. rewrite Nb.
  rewrite bind_ret. apply String.eqb_neq in Nd. rewrite Nd. reflexivity.
Qed.

Lemma dispatch_not_str z t w :
  dispatch (PyInt z) t w
  = (Raised (mkExn AttributeError "'int' object has no attribute 'lower'"), []).
Proof. reflexivity. Qed.

Lemma dispatch_no_existing m t w :
  Forall (fun ev => uses_existing ev = false) (trace (dispatch m t w)).
Proof.
  destruct m as [| s | z]; try (cbn; constructor).
  destruct (String.eqb_spec (lower s) "browser") as [Eb | Nb].
  - rewrite dispatch_browser by assumption. apply flow_no_existing.
  - destruct (String.eqb_spec (lower s) "device") as [Ed | Nd].
    + rewrite dispatch_device by assumption. apply flow_no_existing.
    + rewrite dispatch_invalid by assumption. constructor.
Qed.

Lemma dispatch_named f s t w :
  lower s = flow_name f -> dispatch (PyStr s) t w = run_flow f t w.
Proof.
  destruct f; cbn [flow_name]; [apply dispatch_browser | apply dispatch_device].
Qed.

Lemma authenticate_dispatches_to f s t force w :
  t <> PyNone ->
  existing_not_taken force w ->
  lower s = flow_name f ->
  dispatches_to f t w (authenticate_azure (PyStr s) t force w).
Proof.
  intros Ht Hn Hs.
  destruct (authenticate_not_taken (PyStr s) t force w Ht Hn) as (pre & Hpre & E).
  exists pre. split; [assumption |].
  rewrite E. cbn [default_method is_none].
  rewrite (dispatch_named f s t w Hs). reflexivity.
Qed.

Lemma authenticate_raises_library_error f s t force w e :
  t <> PyNone ->
  lower s = flow_name f ->
  result (authenticate_azure (PyStr s) t force w) = Raised e ->
  raised_by_library w f t e.
Proof.
  intros Ht Hs. unfold raised_by_library. destruct force.
  - rewrite (authenticate_forced _ t w Ht). cbn [default_method is_none].
    rewrite (dispatch_named f s t w Hs). intros H.
    right. now apply flow_raises_library_error.
  - destruct (existing_failure w) as [e0 |] eqn:He.
    + destruct (derives_Exception (exn_cls e0)) eqn:D.
      * rewrite (authenticate_existing_caught _ t w e0 Ht He D).
        cbn [default_method is_none result fst].
        rewrite (dispatch_named f s t w Hs). intros H.
        right. now apply flow_raises_library_error.
      * rewrite (authenticate_existing_uncaught _ t w e0 Ht He D).
        cbn [result fst]. intros [= <-]. left. reflexivity.
    + rewrite (authenticate_existing_valid _ t w Ht He). discriminate.
Qed.

(** ** The claims on [authenticate_azure] *)

(** C1, as stated, fails: the method ["BROWSER"] is neither ["browser"] nor
    ["device"], the tenant is given, and the call returns the credential of
    the browser flow instead of failing. *)
Lemma uppercase_method_is_not_rejected :
  PyStr "BROWSER" <> PyStr "browser" /\
  PyStr "BROWSER" <> PyStr "device" /\
  PyStr "contoso" <> PyNone /\
  result (authenticate_azure (PyStr "BROWSER") (PyStr "contoso") true world_ok)
  = Returned (flow_credential Browser (PyStr "contoso")).
Proof.
  split; [discriminate |]. split; [discriminate |]. split; [discriminate |].
  reflexivity.
Qed.

(** C1, amended: for every [str] method whose lower-cased form is neither
    ["browser"] nor ["device"], and a tenant that is not [None], when the
    attempt with existing credentials does not return (it is skipped by
    [force], or it raised an [Exception]), the call raises the [ValueError]
    "Invalid auth_method", and no interactive flow is entered. *)
Theorem unknown_method_rejected_at_dispatch s t force w :
  t <> PyNone ->
  lower s <> "browser" ->
  lower s <> "device" ->
  existing_not_taken force w ->
  result (authenticate_azure (PyStr s) t force w)
  = Raised (mkExn ValueError
              ("Invalid auth_method: " ++ s ++ ". Use 'browser' or 'device'")) /\
  Forall (fun ev => uses_interactive ev = false)
         (trace (authenticate_azure (PyStr s) t force w)).
Proof.
  intros Ht Nb Nd Hn.
  destruct (authenticate_not_taken (PyStr s) t force w Ht Hn) as (pre & Hpre & E).
  rewrite E. cbn [default_method is_none].
  rewrite (dispatch_invalid s t w Nb Nd). cbn [result trace fst snd].
  split; [reflexivity |]. rewrite app_nil_r. exact Hpre.
Qed.

Lemma unknown_method_rejected_at_dispatch_witness :
  result (authenticate_azure (PyStr "garbage") (PyStr "contoso") false
            world_no_existing)
  = Raised (mkExn ValueError
              "Invalid auth_method: garbage. Use 'browser' or 'device'") /\
  Forall (fun ev => uses_interactive ev = false)
         (trace (authenticate_azure (PyStr "garbage") (PyStr "contoso") false
                   world_no_existing)).
Proof.
  apply (unknown_method_rejected_at_dispatch
           "garbage" (PyStr "contoso") false world_no_existing).
  - discriminate.
  - discriminate.
  - discriminate.
  - right. split; [reflexivity |].
    exists (mkExn CredentialUnavailableError "no credential available").
    split; reflexivity.
Defined.

(** C2: whatever [auth_method] and [force] are, and whatever the library would
    do, a call with [tenant_id=None] raises the [ValueError] "tenant_id is
    required" with an empty trace: no credential was constructed and no token
    was requested. *)
Theorem missing_tenant_fails_before_any_call m force w :
  authenticate_azure m PyNone force w
  = (Raised (mkExn ValueError
               "tenant_id is required. Please provide your Azure tenant ID."),
     []).
Proof. reflexivity. Qed.

(** C3: for every [auth_method] and every tenant that is not [None], if the
    existing credential validates, the call with [force=False] returns that
    credential, and its trace (construct, one token request, one line) has no
    event of the browser or device-code flow. *)
Theorem valid_existing_credential_is_returned m t w :
  t <> PyNone ->
  existing_failure w = None ->
  result (authenticate_azure m t false w) = Returned existing_credential /\
  trace (authenticate_azure m t false w) = existing_success_trace /\
  Forall (fun ev => uses_interactive ev = false)
         (trace (authenticate_azure m t false w)).
Proof.
  intros Ht Hv. rewrite (authenticate_existing_valid m t w Ht Hv).
  cbn [result trace fst snd]. repeat split. repeat constructor.
Qed.

Lemma valid_existing_credential_is_returned_witness :
  result (authenticate_azure (PyStr "device") (PyStr "contoso") false world_ok)
  = Returned existing_credential /\
  trace (authenticate_azure (PyStr "device") (PyStr "contoso") false world_ok)
  = existing_success_trace /\
  Forall (fun ev => uses_interactive ev = false)
         (trace (authenticate_azure (PyStr "device") (PyStr "contoso") false
                   world_ok)).
Proof.
  apply (valid_existing_credential_is_returned
           (PyStr "device") (PyStr "contoso") world_ok).
  - discriminate.
  - reflexivity.
Defined.

(** C4: for every [auth_method], every tenant that is not [None] and every
    world (existing credential valid or not), the call with [force=True] is
    exactly the dispatch on the method, and its trace has no construction of,
    and no token request on, the default credential. *)
Theorem force_bypasses_existing_credentials m t w :
  t <> PyNone ->
  authenticate_azure m t true w = dispatch (default_method m) t w /\
  Forall (fun ev => uses_existing ev = false)
         (trace (authenticate_azure m t true w)).
Proof.
  intros Ht. rewrite (authenticate_forced m t w Ht).
  split; [reflexivity | apply dispatch_no_existing].
Qed.

Lemma force_bypasses_existing_credentials_witness :
  authenticate_azure (PyStr "device") (PyStr "contoso") true world_ok
  = dispatch (default_method (PyStr "device")) (PyStr "contoso") world_ok /\
  Forall (fun ev => uses_existing ev = false)
         (trace (authenticate_azure (PyStr "device") (PyStr "contoso") true
                   world_ok)).
Proof.
  apply (force_bypasses_existing_credentials
           (PyStr "device") (PyStr "contoso") world_ok).
  discriminate.
Defined.

(** C5, as stated, fails in its "logged": when the token request of the
    device-code flow is interrupted ([KeyboardInterrupt], which does not
    derive from [Exception]), the exception reaches the caller unchanged but
    no "Authentication failed" line is printed. *)
Lemma interrupted_token_request_is_not_logged :
  lib_get_token world_cancelled (mkCred DeviceCode (Some (PyStr "contoso")))
    management_scope
  = Some (mkExn KeyboardInterrupt "") /\
  _authenticate_with_device_code (PyStr "contoso") world_cancelled
  = (Raised (mkExn KeyboardInterrupt ""),
     [ EvPrint "📱 Starting device code authentication...";
       EvPrint "🏢 Authenticating with tenant: contoso";
       EvPrint "📝 You'll receive a code to enter on another device";
       EvConstruct DeviceCode (Some (PyStr "contoso"));
       EvGetToken (mkCred DeviceCode (Some (PyStr "contoso"))) management_scope ]).
Proof. split; reflexivity. Qed.

(** C5, amended: in the browser flow and in the device-code flow alike, once
    the credential is built the very next event is a token request on it, and
    it is the only one of the run (no retry).  If that request raises an
    exception [e] deriving from [Exception], the line "Authentication failed:
    e" is printed and then the same [e] reaches the caller; any other
    exception reaches the caller unchanged, without that line. *)
Theorem interactive_credential_validated_once f t w :
  lib_construct w (flow_kind f) (Some t) = None ->
  (exists tail,
     trace (run_flow f t w)
     = (flow_opening f t ++ flow_request f t :: tail)%list /\
     token_requests (trace (run_flow f t w)) = 1) /\
  (forall e,
     lib_get_token w (flow_credential f t) management_scope = Some e ->
     derives_Exception (exn_cls e) = true ->
     run_flow f t w
     = (Raised e,
        (flow_opening f t
         ++ [ EvGetToken (flow_credential f t) management_scope;
              EvPrint ("❌ Authentication failed: " ++ exn_msg e) ])%list)) /\
  (forall e,
     lib_get_token w (flow_credential f t) management_scope = Some e ->
     derives_Exception (exn_cls e) = false ->
     run_flow f t w
     = (Raised e,
        (flow_opening f t
         ++ [ EvGetToken (flow_credential f t) management_scope ])%list)).
Proof.
  intros Ec. split; [| split].
  - destruct (flow_cases f t w) as [(e & Ec' & _) | (_ & tail & E & Ht & _)];
      [congruence |].
    exists tail. split; [exact E |]. rewrite E.
    unfold token_requests. rewrite filter_app, length_app.
    cbn [filter is_get_token flow_request].
    assert (Hop : filter is_get_token (flow_opening f t) = [])
      by (destruct f; reflexivity).
    assert (Htl : filter is_get_token tail = []).
    { clear E. induction Ht as [| ev tl Hev _ IH]; [reflexivity |].
      cbn. destruct ev; cbn in Hev; try discriminate; exact IH. }
    rewrite Hop, Htl. reflexivity.
  - intros e Eg D. exact (flow_token_error f t w e Ec Eg D).
  - intros e Eg D. exact (flow_token_signal f t w e Ec Eg D).
Qed.

Lemma interactive_credential_validated_once_witness :
  _authenticate_with_device_code (PyStr "contoso") world_refused
  = (Raised (mkExn ClientAuthenticationError "access denied"),
     [ EvPrint "📱 Starting device code authentication...";
       EvPrint "🏢 Authenticating with tenant: contoso";
       EvPrint "📝 You'll receive a code to enter on another device";
       EvConstruct DeviceCode (Some (PyStr "contoso"));
       EvGetToken (mkCred DeviceCode (Some (PyStr "contoso"))) management_scope;
       EvPrint "❌ Authentication failed: access denied" ]).
Proof.
  apply (proj1 (proj2 (interactive_credential_validated_once
                         Device (PyStr "contoso") world_refused eq_refl))
               (mkExn ClientAuthenticationError "access denied")).
  - reflexivity.
  - reflexivity.
Defined.

(** C6: with [auth_method=None] and a tenant that is not [None], when the
    attempt with existing credentials does not return, the call is a run of
    the browser flow: same result, and the same events after those of the
    attempt. *)
Theorem default_method_is_browser t force w :
  t <> PyNone ->
  existing_not_taken force w ->
  exists pre,
    Forall (fun ev => uses_interactive ev = false) pre /\
    authenticate_azure PyNone t force w
    = (result (_authenticate_with_browser t w),
       (pre ++ trace (_authenticate_with_browser t w))%list).
Proof.
  intros Ht Hn.
  destruct (authenticate_not_taken PyNone t force w Ht Hn) as (pre & Hpre & E).
  exists pre. split; [assumption |].
  rewrite E. cbn [default_method is_none].
  rewrite (dispatch_browser "browser" t w eq_refl). reflexivity.
Qed.

Lemma default_method_is_browser_witness :
  exists pre,
    Forall (fun ev => uses_interactive ev = false) pre /\
    authenticate_azure PyNone (PyStr "contoso") true world_ok
    = (result (_authenticate_with_browser (PyStr "contoso") world_ok),
       (pre ++ trace (_authenticate_with_browser (PyStr "contoso") world_ok))%list).
Proof.
  apply (default_method_is_browser (PyStr "contoso") true world_ok).
  - discriminate.
  - left. reflexivity.
Defined.

(** C8, as stated, fails: ["BROWSER"] lower-cases to ["browser"], yet without
    a tenant the call fails with the "tenant_id is required" configuration
    error, and with a tenant, [force] off and existing credentials that
    validate it returns the default credential without entering a flow. *)
Lemma matching_method_does_not_always_dispatch :
  lower "BROWSER" = "browser" /\
  authenticate_azure (PyStr "BROWSER") PyNone false world_ok
  = (Raised (mkExn ValueError
               "tenant_id is required. Please provide your Azure tenant ID."),
     []) /\
  authenticate_azure (PyStr "BROWSER") (PyStr "contoso") false world_ok
  = (Returned (mkCred DefaultAzure None),
     [ EvConstruct DefaultAzure None;
       EvGetToken (mkCred DefaultAzure None) management_scope;
       EvPrint "✅ Using existing Azure credentials" ]).
Proof. split; [reflexivity | split; reflexivity]. Qed.

(** C8, amended: the method is matched after lower-casing.  For every [str]
    whose lower-cased form is ["browser"] (respectively ["device"]) and every
    tenant that is not [None]: the dispatch runs the browser (respectively
    device-code) flow, so its invalid-method branch is not reached; the whole
    call is a run of that flow whenever the attempt with existing credentials
    does not return; and if the call raises at all, the exception is one the
    identity library raised, in that attempt or in that flow. *)
Theorem method_matching_is_case_insensitive f s t force w :
  t <> PyNone ->
  lower s = flow_name f ->
  dispatch (PyStr s) t w = run_flow f t w /\
  (existing_not_taken force w ->
   dispatches_to f t w (authenticate_azure (PyStr s) t force w)) /\
  (forall e,
     result (authenticate_azure (PyStr s) t force w) = Raised e ->
     raised_by_library w f t e).
Proof.
  intros Ht Hs. split; [| split].
  - exact (dispatch_named f s t w Hs).
  - intros Hn. exact (authenticate_dispatches_to f s t force w Ht Hn Hs).
  - intros e. exact (authenticate_raises_library_error f s t force w e Ht Hs).
Qed.

Lemma method_matching_is_case_insensitive_witness :
  dispatch (PyStr "BROWSER") (PyStr "contoso") world_ok
  = _authenticate_with_browser (PyStr "contoso") world_ok /\
  dispatches_to Device (PyStr "contoso") world_no_existing
    (authenticate_azure (PyStr "Device") (PyStr "contoso") false
       world_no_existing).
Proof.
  split.
  - apply (method_matching_is_case_insensitive
             Browser "BROWSER" (PyStr "contoso") true world_ok).
    + discriminate.
    + reflexivity.
  - apply (method_matching_is_case_insensitive
             Device "Device" (PyStr "contoso") false world_no_existing).
    + discriminate.
    + reflexivity.
    + right. split; [reflexivity |].
      exists (mkExn CredentialUnavailableError "no credential available").
      split; reflexivity.
Defined.

(** C9: with [force=False], a tenant that is not [None] and an existing
    credential that validates, the whole run (result and trace) is the same
    for any two values of [auth_method], and it returns the existing
    credential: an unknown method such as ["garbage"], or a value that is not
    a [str], is never looked at. *)
Theorem valid_existing_credential_ignores_method m m' t w :
  t <> PyNone ->
  existing_failure w = None ->
  authenticate_azure m t false w = authenticate_azure m' t false w /\
  result (authenticate_azure m t false w) = Returned existing_credential.
Proof.
  intros Ht Hv.
  rewrite (authenticate_existing_valid m t w Ht Hv).
  rewrite (authenticate_existing_valid m' t w Ht Hv).
  split; reflexivity.
Qed.

Lemma valid_existing_credential_ignores_method_witness :
  authenticate_azure (PyStr "garbage") (PyStr "contoso") false world_ok
  = authenticate_azure (PyInt 7) (PyStr "contoso") false world_ok /\
  result (authenticate_azure (PyStr "garbage") (PyStr "contoso") false world_ok)
  = Returned existing_credential.
Proof.
  apply (valid_existing_credential_ignores_method
           (PyStr "garbage") (PyInt 7) (PyStr "contoso") world_ok).
  - discriminate.
  - reflexivity.
Defined.

(** C10, as stated, fails: when the token request of the existing credentials
    is interrupted ([KeyboardInterrupt], which does not derive from
    [Exception]), the exception reaches the caller and the dispatch is never
    entered, although the browser flow would have succeeded. *)
Lemma interrupt_in_existing_attempt_propagates :
  existing_failure world_interrupted = Some (mkExn KeyboardInterrupt "") /\
  authenticate_azure (PyStr "browser") (PyStr "contoso") false world_interrupted
  = (Raised (mkExn KeyboardInterrupt ""),
     [ EvConstruct DefaultAzure None;
       EvGetToken existing_credential management_scope ]) /\
  result (dispatch (PyStr "browser") (PyStr "contoso") world_interrupted)
  = Returned (flow_credential Browser (PyStr "contoso")).
Proof. split; [reflexivity | split; reflexivity]. Qed.

(** C10, amended: every exception deriving from [Exception] that the attempt
    with existing credentials raises (from the construction of the default
    credential or from its token request) is caught: the call prints the
    "No existing credentials" line and goes on to the dispatch on the method,
    whose result is the result of the call. *)
Theorem existing_attempt_errors_are_swallowed m t w e :
  t <> PyNone ->
  existing_failure w = Some e ->
  derives_Exception (exn_cls e) = true ->
  authenticate_azure m t false w
  = (result (dispatch (default_method m) t w),
     (existing_calls w
      ++ [EvPrint "ℹ️ No existing credentials found, will authenticate..."]
      ++ trace (dispatch (default_method m) t w))%list) /\
  Forall (fun ev => uses_existing ev = true) (existing_calls w).
Proof.
  intros Ht He D. split.
  - exact (authenticate_existing_caught m t w e Ht He D).
  - apply existing_calls_only_existing.
Qed.

Lemma existing_attempt_errors_are_swallowed_witness :
  authenticate_azure (PyStr "device") (PyStr "contoso") false world_no_existing
  = (Returned (mkCred DeviceCode (Some (PyStr "contoso"))),
     [ EvConstruct DefaultAzure None;
       EvGetToken existing_credential management_scope;
       EvPrint "ℹ️ No existing credentials found, will authenticate...";
       EvPrint "📱 Starting device code authentication...";
       EvPrint "🏢 Authenticating with tenant: contoso";
       EvPrint "📝 You'll receive a code to enter on another device";
       EvConstruct DeviceCode (Some (PyStr "contoso"));
       EvGetToken (mkCred DeviceCode (Some (PyStr "contoso"))) management_scope;
       EvPrint "✅ Authentication successful!" ]).
Proof.
  apply (proj1 (existing_attempt_errors_are_swallowed
                  (PyStr "device") (PyStr "contoso") world_no_existing
                  (mkExn CredentialUnavailableError "no credential available")
                  ltac:(discriminate) eq_refl eq_refl)).
Defined.

(** * Properties of the notebook discovery test *)

(** ** Matching *)





(** ** [glob] finds exactly the entries it visits whose name matches *)







(** ** The test itself *)







(** ** The claim on notebook discovery *)




(** The test does not look at the kind of what the glob returns: under a root
    whose only entry is an empty directory named [a.ipynb], no [.ipynb] file
    lies under the root, the glob returns that directory and the test
    passes. *)
Lemma directory_named_like_notebook_passes :
  ~ ipynb_file_under directory_only_content /\
  glob_recursive "*.ipynb" sample_root directory_only_content
  = [ ["repo"; "a.ipynb"] ] /\
  test_all_notebooks_exist sample_root directory_only_content world_ok
  = (Returned tt, [EvPrint "Found notebook: a.ipynb"]).
Proof.
  split; [| split; reflexivity].
  intros (rel & e & Hat & Hfile & _).
  inversion Hat as [c e' Hin | c d children rel' e' Hin Hsub]; subst.
  - destruct Hin as [<- | []]. discriminate.
  - destruct Hin as [[= <- <-] | []].
    inversion Hsub as [c e' Hin | c d' children' rel'' e' Hin _]; subst;
      destruct Hin.
Qed.

(** * Further properties of the authentication selector *)

(** ** Every run, by cases *)

Lemma existing_valid_token w :
  existing_failure w = None ->
  lib_get_token w existing_credential management_scope = None.
Proof.
  unfold existing_failure.
  destruct (lib_construct w DefaultAzure None); [discriminate | trivial].
Qed.

(** The four ways a call can go. *)
Lemma authenticate_cases m t force w :
  (t = PyNone /\
   authenticate_azure m t force w = (Raised missing_tenant_error, [])) \/
  (t <> PyNone /\ force = false /\ existing_failure w = None /\
   authenticate_azure m t force w
   = (Returned existing_credential, existing_success_trace)) \/
  (t <> PyNone /\ force = false /\
   exists e, existing_failure w = Some e /\
             derives_Exception (exn_cls e) = false /\
             authenticate_azure m t force w = (Raised e, existing_calls w)) \/
  (t <> PyNone /\ existing_not_taken force w /\
   exists pre,
     (force = true /\ pre = [] \/
      force = false /\ pre = (existing_calls w ++ [no_existing_line])%list) /\
     authenticate_azure m t force w
     = (result (dispatch (default_method m) t w),
        (pre ++ trace (dispatch (default_method m) t w))%list)).
Proof.
  destruct t as [| ts | tz] eqn:Et; [left; split; reflexivity | |];
    right;
    (assert (Ht : t <> PyNone) by (rewrite Et; discriminate));
    rewrite <- Et in *; clear Et;
    (destruct force;
     [ right; right; split; [exact Ht |]; split; [left; reflexivity |];
       exists []; split; [left; split; reflexivity |];
       rewrite (authenticate_forced m t w Ht); apply pair_result_trace
     | destruct (existing_failure w) as [e |] eqn:He;
       [ destruct (derives_Exception (exn_cls e)) eqn:D;
         [ right; right; split; [exact Ht |];
           split; [right; split; [reflexivity | eauto] |];
           exists (existing_calls w ++ [no_existing_line])%list;
           split; [right; split; reflexivity |];
           rewrite (authenticate_existing_caught m t w e Ht He D);
           rewrite <- app_assoc; reflexivity
         | right; left; split; [exact Ht |]; split; [reflexivity |];
           exists e; repeat split; try assumption;
           apply authenticate_existing_uncaught; assumption ]
       | left; split; [exact Ht |]; split; [reflexivity |];
         split; [reflexivity |];
         apply authenticate_existing_valid; assumption ] ]).
Qed.

(** The dispatch either raises at once, with an empty trace, or is a flow. *)
Lemma dispatch_cases m t w :
  (selected_flow m = None /\
   exists e, dispatch (default_method m) t w = (Raised e, [])) \/
  (exists f, selected_flow m = Some f /\
             dispatch (default_method m) t w = run_flow f t w).
Proof.
  unfold selected_flow.
  destruct (default_method m) as [| s | z].
  - left. split; [reflexivity | eexists; reflexivity].
  - destruct (String.eqb_spec (lower s) "browser") as [Eb | Nb].
    + right. exists Browser. split; [reflexivity | now apply dispatch_browser].
    + destruct (String.eqb_spec (lower s) "device") as [Ed | Nd].
      * right. exists Device. split; [reflexivity | now apply dispatch_device].
      * left. split; [reflexivity |]. eexists. now apply dispatch_invalid.
  - left. split; [reflexivity | eexists; reflexivity].
Qed.

Lemma flow_returns_iff f t w c :
  result (run_flow f t w) = Returned c <->
  flow_granted w f t /\ c = flow_credential f t.
Proof.
  unfold flow_granted.
  destruct (lib_construct w (flow_kind f) (Some t)) as [e |] eqn:Ec.
  - rewrite (flow_construct_fails f t w e Ec). cbn [result fst].
    split; [discriminate | intros [[? _] _]; discriminate].
  - destruct (lib_get_token w (flow_credential f t) management_scope)
      as [e |] eqn:Eg.
    + destruct (derives_Exception (exn_cls e)) eqn:D;
        [ rewrite (flow_token_error f t w e Ec Eg D)
        | rewrite (flow_token_signal f t w e Ec Eg D) ];
        cbn [result fst];
        (split; [discriminate | intros [[_ ?] _]; discriminate]).
    + rewrite (flow_token_granted f t w Ec Eg). cbn [result fst]. split.
      * intros [= <-]. auto.
      * intros [_ ->]. reflexivity.
Qed.

Lemma dispatch_returns_iff m t w c :
  result (dispatch (default_method m) t w) = Returned c <->
  exists f, selected_flow m = Some f /\ flow_granted w f t
            /\ c = flow_credential f t.
Proof.
  destruct (dispatch_cases m t w) as [(Hn & e & E) | (f & Hs & E)]; rewrite E.
  - cbn [result fst]. split; [discriminate |].
    intros (f & Hs & _). congruence.
  - rewrite flow_returns_iff. split.
    + intros [Hg ->]. exists f. auto.
    + intros (f' & Hs' & Hg & ->).
      assert (f' = f) by congruence. subst f'. auto.
Qed.

(** ** Counting the calls of a trace *)

Lemma token_requests_app (a b : list event) :
  token_requests (a ++ b) = token_requests a + token_requests b.
Proof. unfold token_requests. now rewrite filter_app, length_app. Qed.

Lemma constructions_app (a b : list event) :
  constructions (a ++ b) = constructions a + constructions b.
Proof. unfold constructions. now rewrite filter_app, length_app. Qed.

Lemma prints_count_nothing (l : list event) :
  Forall (fun ev => is_library_call ev = false) l ->
  token_requests l = 0 /\ constructions l = 0 /\
  forall k, Forall (fun ev => of_kind k ev = false) l.
Proof.
  induction 1 as [| ev l Hev _ (IH1 & IH2 & IH3)].
  - repeat split. intros k. constructor.
  - destruct ev as [line | k' tn | c sc]; try discriminate.
    repeat split; [exact IH1 | exact IH2 |].
    intros k. constructor; [reflexivity | apply IH3].
Qed.

(** What a flow calls: one construction, at most one token request, and
    nothing of another kind than its own. *)
Lemma flow_calls f t w :
  token_requests (trace (run_flow f t w)) <= 1 /\
  constructions (trace (run_flow f t w)) = 1 /\
  forall k, k <> flow_kind f ->
            Forall (fun ev => of_kind k ev = false) (trace (run_flow f t w)).
Proof.
  assert (Hop : token_requests (flow_opening f t) = 0 /\
                constructions (flow_opening f t) = 1 /\
                forall k, k <> flow_kind f ->
                          Forall (fun ev => of_kind k ev = false)
                                 (flow_opening f t)).
  { destruct f; repeat split; intros k Hk; repeat constructor;
      destruct k; try reflexivity; now elim Hk. }
  destruct Hop as (Ho1 & Ho2 & Ho3).
  destruct (flow_cases f t w) as [(e & _ & E) | (_ & tail & E & Ht & _)];
    rewrite E; cbn [trace snd].
  - rewrite Ho1, Ho2. auto.
  - destruct (prints_count_nothing tail Ht) as (T1 & T2 & T3).
    rewrite token_requests_app, constructions_app.
    change (flow_request f t :: tail) with ([flow_request f t] ++ tail)%list.
    rewrite token_requests_app, constructions_app, Ho1, Ho2, T1, T2.
    split; [unfold token_requests, flow_request; cbn; lia |].
    split; [unfold constructions, flow_request; cbn; lia |].
    intros k Hk. apply Forall_app. split; [now apply Ho3 |].
    apply Forall_app. split; [| apply T3].
    repeat constructor. destruct f, k; try reflexivity; now elim Hk.
Qed.

Lemma existing_calls_count w :
  token_requests (existing_calls w) <= 1 /\
  constructions (existing_calls w) = 1 /\
  forall k, k <> DefaultAzure ->
            Forall (fun ev => of_kind k ev = false) (existing_calls w).
Proof.
  unfold existing_calls. destruct (lib_construct w DefaultAzure None);
    repeat split; try (cbn; lia);
    intros k Hk; repeat constructor; destruct k; try reflexivity; now elim Hk.
Qed.

Lemma bind_ext {A B} (m : Py A) (k k' : A -> Py B) w :
  (forall a, k a w = k' a w) -> bind m k w = bind m k' w.
Proof.
  intros H. unfold bind. destruct (m w) as [[a | e] t1]; [| reflexivity].
  rewrite H. reflexivity.
Qed.

Lemma dispatch_selected m f t w :
  selected_flow m = Some f ->
  dispatch (default_method m) t w = run_flow f t w.
Proof.
  intros Hs. destruct (dispatch_cases m t w) as [(Hn & _) | (f' & Hs' & E)].
  - congruence.
  - assert (f' = f) by congruence. subst f'. exact E.
Qed.

(** ** When the call succeeds, and with what *)

(** X1: the call returns a credential exactly when a tenant is given and
    either the existing credentials validate (and [force] is off), or the
    attempt with them does not return, the method selects a flow, and the
    library builds that flow's credential and grants it a token. *)
Theorem authenticate_returns_iff m t force w :
  (exists c, result (authenticate_azure m t force w) = Returned c) <->
  t <> PyNone /\
  ((force = false /\ existing_failure w = None) \/
   (existing_not_taken force w /\
    exists f, selected_flow m = Some f /\ flow_granted w f t)).
Proof.
  destruct (authenticate_cases m t force w)
    as [(Ht & E) | [(Ht & Hf & Hv & E) | [(Ht & Hf & e & He & D & E)
       | (Ht & Hn & pre & _ & E)]]]; rewrite E; cbn [result fst].
  - split; [intros [c H]; discriminate | intros [H _]; contradiction].
  - split; [intros _ | intros _; eauto]. split; [exact Ht | left; auto].
  - split; [intros [c H]; discriminate |].
    intros [_ [[_ Hv] | [[Hf' | (_ & e' & He' & D')] _]]]; congruence.
  - split.
    + intros [c H]. apply dispatch_returns_iff in H as (f & Hs & Hg & _).
      split; [exact Ht | right]. split; [exact Hn | eauto].
    + intros [_ [[Hf Hv] | [_ (f & Hs & Hg)]]].
      * destruct Hn as [Hf' | (_ & e & He & _)]; congruence.
      * exists (flow_credential f t). apply dispatch_returns_iff. eauto.
Qed.

(** X2: a credential the call returns has been validated in that very run:
    the library granted it a token for the management scope, and the request
    is in the trace.  It is the default credential, or the credential of the
    selected flow built for the given tenant. *)
Theorem returned_credential_was_validated m t force w c :
  result (authenticate_azure m t force w) = Returned c ->
  lib_get_token w c management_scope = None /\
  In (EvGetToken c management_scope) (trace (authenticate_azure m t force w)) /\
  ((force = false /\ c = existing_credential) \/
   (exists f, selected_flow m = Some f /\ c = flow_credential f t)).
Proof.
  destruct (authenticate_cases m t force w)
    as [(Ht & E) | [(Ht & Hf & Hv & E) | [(Ht & Hf & e & He & D & E)
       | (Ht & Hn & pre & _ & E)]]]; rewrite E; cbn [result trace fst snd].
  - discriminate.
  - intros [= <-]. split; [now apply existing_valid_token |].
    split; [right; left; reflexivity | left; auto].
  - discriminate.
  - intros H. apply dispatch_returns_iff in H as (f & Hs & Hg & ->).
    rewrite (dispatch_selected m f t w Hs).
    destruct Hg as [Ec Eg]. rewrite (flow_token_granted f t w Ec Eg).
    cbn [trace snd]. split; [exact Eg |]. split; [| right; eauto].
    apply in_or_app. right. apply in_or_app. right. left. reflexivity.
Qed.

Lemma returned_credential_was_validated_witness :
  lib_get_token world_no_existing
    (mkCred DeviceCode (Some (PyStr "contoso"))) management_scope = None /\
  In (EvGetToken (mkCred DeviceCode (Some (PyStr "contoso"))) management_scope)
     (trace (authenticate_azure (PyStr "DEVICE") (PyStr "contoso") false
               world_no_existing)).
Proof.
  destruct (returned_credential_was_validated
              (PyStr "DEVICE") (PyStr "contoso") false world_no_existing
              (mkCred DeviceCode (Some (PyStr "contoso"))) eq_refl)
    as (H1 & H2 & _).
  split; [exact H1 | exact H2].
Defined.

(** X3: the attempt with existing credentials never looks at [tenant_id]:
    with [force] off and existing credentials that validate, two calls with
    different tenants are the same run, and the credential returned carries
    no tenant. *)
Theorem valid_existing_credential_ignores_tenant m t t' w :
  t <> PyNone ->
  t' <> PyNone ->
  existing_failure w = None ->
  authenticate_azure m t false w = authenticate_azure m t' false w /\
  forall c, result (authenticate_azure m t false w) = Returned c ->
            cred_tenant c = None.
Proof.
  intros Ht Ht' Hv.
  rewrite (authenticate_existing_valid m t w Ht Hv).
  rewrite (authenticate_existing_valid m t' w Ht' Hv).
  split; [reflexivity |]. cbn [result fst]. intros c [= <-]. reflexivity.
Qed.

Lemma valid_existing_credential_ignores_tenant_witness :
  authenticate_azure PyNone (PyStr "contoso") false world_ok
  = authenticate_azure PyNone (PyStr "fabrikam") false world_ok.
Proof.
  apply (valid_existing_credential_ignores_tenant
           PyNone (PyStr "contoso") (PyStr "fabrikam") world_ok).
  - discriminate.
  - discriminate.
  - reflexivity.
Defined.

(** X4: two methods that select the same flow are interchangeable: [None]
    and any spelling of ["browser"], or two spellings of ["device"], give the
    same run, result and trace, for every tenant, [force] and world. *)
Theorem methods_selecting_one_flow_are_interchangeable m m' f t force w :
  selected_flow m = Some f ->
  selected_flow m' = Some f ->
  authenticate_azure m t force w = authenticate_azure m' t force w.
Proof.
  intros Hs Hs'. unfold authenticate_azure.
  destruct (is_none t); [reflexivity |].
  apply bind_ext. intros [c |]; [reflexivity |].
  rewrite (dispatch_selected m f t w Hs), (dispatch_selected m' f t w Hs').
  reflexivity.
Qed.

Lemma methods_selecting_one_flow_are_interchangeable_witness :
  authenticate_azure PyNone (PyStr "contoso") false world_refused
  = authenticate_azure (PyStr "Browser") (PyStr "contoso") false world_refused.
Proof.
  apply (methods_selecting_one_flow_are_interchangeable
           PyNone (PyStr "Browser") Browser).
  - reflexivity.
  - reflexivity.
Defined.

(** ** Failures outside the handlers *)

(** X5: the credential of a flow is built outside the [try] (lines 67 and
    84).  When the attempt with existing credentials does not return and the
    library refuses to build the credential of the selected flow, the
    exception reaches the caller as it is, whatever its class; no token is
    requested on an interactive credential and no "Authentication failed"
    line is printed. *)
Theorem flow_constructor_failure_is_not_logged m f t force w e :
  t <> PyNone ->
  existing_not_taken force w ->
  selected_flow m = Some f ->
  lib_construct w (flow_kind f) (Some t) = Some e ->
  result (authenticate_azure m t force w) = Raised e /\
  ~ In ("❌ Authentication failed: " ++ exn_msg e)
       (printed (trace (authenticate_azure m t force w))) /\
  Forall (fun ev => uses_interactive ev = true -> is_get_token ev = false)
         (trace (authenticate_azure m t force w)).
Proof.
  intros Ht Hn Hs Ec.
  destruct (authenticate_cases m t force w)
    as [(Ht' & _) | [(_ & Hf & Hv & _) | [(_ & Hf & e' & He & D & _)
       | (_ & _ & pre & Hpre & E)]]].
  - contradiction.
  - destruct Hn as [Hf' | (_ & e' & He & _)]; congruence.
  - destruct Hn as [Hf' | (_ & e'' & He' & D')]; congruence.
  - rewrite E, (dispatch_selected m f t w Hs), (flow_construct_fails f t w e Ec).
    cbn [result trace fst snd]. split; [reflexivity |].
    destruct Hpre as [[_ ->] | [_ ->]].
    + split.
      * destruct f; cbn; intros [H | [H | H]]; try discriminate; try contradiction.
        destruct H as [H | H]; [discriminate | contradiction].
      * destruct f; repeat constructor; cbn; congruence.
    + unfold existing_calls. split.
      * destruct (lib_construct w DefaultAzure None), f; cbn;
          intros [H | [H | [H | H]]]; try discriminate; try contradiction;
          destruct H as [H | H]; try discriminate; try contradiction.
      * destruct (lib_construct w DefaultAzure None), f;
          repeat constructor; cbn; congruence.
Qed.

Lemma flow_constructor_failure_is_not_logged_witness :
  let w := mkWorld (fun k _ =>
                      match k with
                      | DeviceCode => Some (mkExn ValueError "Invalid tenant ID")
                      | _ => None
                      end)
                   (fun _ _ => None) in
  authenticate_azure (PyStr "device") (PyStr "not a tenant") true w
  = (Raised (mkExn ValueError "Invalid tenant ID"),
     [ EvPrint "📱 Starting device code authentication...";
       EvPrint "🏢 Authenticating with tenant: not a tenant";
       EvPrint "📝 You'll receive a code to enter on another device";
       EvConstruct DeviceCode (Some (PyStr "not a tenant")) ]) /\
  result (authenticate_azure (PyStr "device") (PyStr "not a tenant") true w)
  = Raised (mkExn ValueError "Invalid tenant ID").
Proof.
  intros w. split; [reflexivity |].
  apply (proj1 (flow_constructor_failure_is_not_logged
                  (PyStr "device") Device (PyStr "not a tenant") true w
                  (mkExn ValueError "Invalid tenant ID")
                  ltac:(discriminate) (or_introl eq_refl) eq_refl eq_refl)).
Defined.

(** X6: a method that is neither [None] nor a [str] is not rejected with the
    "Invalid auth_method" error: when the dispatch is reached, [.lower()]
    raises [AttributeError], before any interactive flow is entered. *)
Theorem non_str_method_raises_attribute_error z t force w :
  t <> PyNone ->
  existing_not_taken force w ->
  result (authenticate_azure (PyInt z) t force w)
  = Raised (mkExn AttributeError "'int' object has no attribute 'lower'") /\
  Forall (fun ev => uses_interactive ev = false)
         (trace (authenticate_azure (PyInt z) t force w)).
Proof.
  intros Ht Hn.
  destruct (authenticate_not_taken (PyInt z) t force w Ht Hn) as (pre & Hpre & E).
  rewrite E. cbn [default_method is_none]. rewrite dispatch_not_str.
  cbn [result trace fst snd]. split; [reflexivity |].
  rewrite app_nil_r. exact Hpre.
Qed.

Lemma non_str_method_raises_attribute_error_witness :
  result (authenticate_azure (PyInt 1) (PyStr "contoso") true world_ok)
  = Raised (mkExn AttributeError "'int' object has no attribute 'lower'").
Proof.
  apply (non_str_method_raises_attribute_error
           1%Z (PyStr "contoso") true world_ok).
  - discriminate.
  - left. reflexivity.
Defined.

(** X7: an exception that does not derive from [Exception], raised while the
    existing credentials are tried, ends the call there: it reaches the
    caller unchanged, nothing is printed, and no interactive credential is
    built, whatever the method. *)
Theorem signal_in_existing_attempt_ends_the_call m t w e :
  t <> PyNone ->
  existing_failure w = Some e ->
  derives_Exception (exn_cls e) = false ->
  authenticate_azure m t false w = (Raised e, existing_calls w) /\
  printed (existing_calls w) = [] /\
  Forall (fun ev => uses_interactive ev = false) (existing_calls w).
Proof.
  intros Ht He D. split; [now apply authenticate_existing_uncaught |].
  unfold existing_calls.
  destruct (lib_construct w DefaultAzure None);
    (split; [reflexivity | repeat constructor]).
Qed.

Lemma signal_in_existing_attempt_ends_the_call_witness :
  authenticate_azure (PyStr "garbage") (PyStr "contoso") false world_cancelled
  = (Raised (mkExn KeyboardInterrupt ""), existing_calls world_cancelled).
Proof.
  apply (signal_in_existing_attempt_ends_the_call
           (PyStr "garbage") (PyStr "contoso") world_cancelled
           (mkExn KeyboardInterrupt "")).
  - discriminate.
  - reflexivity.
  - reflexivity.
Defined.

(** ** How much a call can do *)

(** X8: whatever the arguments and the library do, one call builds at most
    two credentials and requests at most two tokens (one of each with
    [force] on), and it never enters both interactive flows: its trace has
    no browser event or no device-code event. *)
Theorem call_is_bounded_and_enters_one_flow m t force w :
  token_requests (trace (authenticate_azure m t force w)) <= 2 /\
  constructions (trace (authenticate_azure m t force w)) <= 2 /\
  (force = true ->
   token_requests (trace (authenticate_azure m t force w)) <= 1 /\
   constructions (trace (authenticate_azure m t force w)) <= 1) /\
  (Forall (fun ev => of_kind InteractiveBrowser ev = false)
          (trace (authenticate_azure m t force w)) \/
   Forall (fun ev => of_kind DeviceCode ev = false)
          (trace (authenticate_azure m t force w))).
Proof.
  destruct (existing_calls_count w) as (X1 & X2 & X3).
  assert (Hd : token_requests (trace (dispatch (default_method m) t w)) <= 1 /\
               constructions (trace (dispatch (default_method m) t w)) <= 1 /\
               exists k, k <> DefaultAzure /\
                 Forall (fun ev => of_kind k ev = false)
                        (trace (dispatch (default_method m) t w))).
  { destruct (dispatch_cases m t w) as [(_ & e & E) | (f & _ & E)]; rewrite E.
    - cbn. repeat split; try lia.
      exists DeviceCode. split; [discriminate | constructor].
    - destruct (flow_calls f t w) as (F1 & F2 & F3).
      split; [exact F1 |]. split; [lia |].
      destruct f.
      + exists DeviceCode. split; [discriminate | apply F3; discriminate].
      + exists InteractiveBrowser.
        split; [discriminate | apply F3; discriminate]. }
  destruct Hd as (D1 & D2 & k & Hk & D3).
  assert (Hor : forall l,
             Forall (fun ev => of_kind k ev = false) l ->
             Forall (fun ev => of_kind InteractiveBrowser ev = false) l \/
             Forall (fun ev => of_kind DeviceCode ev = false) l).
  { intros l Hl. destruct k; [now elim Hk | left | right]; exact Hl. }
  destruct (authenticate_cases m t force w)
    as [(_ & E) | [(_ & Hf & _ & E) | [(_ & Hf & e & _ & _ & E)
       | (_ & _ & pre & Hpre & E)]]]; rewrite E; cbn [trace snd].
  - cbn. repeat split; try lia. left. constructor.
  - subst force. cbn. repeat split; try lia; try discriminate.
    left. repeat constructor.
  - subst force. repeat split; try lia; try discriminate.
    left. apply X3. discriminate.
  - destruct Hpre as [[Hf ->] | [Hf ->]]; cbn [app].
    + repeat split; try lia. apply Hor, D3.
    + subst force. rewrite <- app_assoc.
      rewrite !token_requests_app, !constructions_app.
      change (token_requests [no_existing_line]) with 0.
      change (constructions [no_existing_line]) with 0.
      repeat split; try lia; try discriminate.
      apply Hor. apply Forall_app. split; [now apply X3 |].
      apply Forall_app. split; [repeat constructor; now destruct k | exact D3].
Qed.

(** * Further properties of the notebook tests *)

(** ** Resolving paths *)







(** ** The existence tests *)


(** ** What discovery returns and prints *)













